(** * vsql: the [%vsql] notebook magic of src/vsql/vmagic.py

    A shallow embedding of [get_connection_dict] and of
    [VerticaSqlMagic.execute], and the properties of the specification
    that concern them.

    The external collaborators (the process environment, the invocation
    parser, the database driver and the dataframe library) are not part of
    the file that is verified; their answers are gathered in a record
    [World] over which every statement quantifies. *)

From stdpp Require Import gmap strings list fin_maps.

Open Scope string_scope.

(** ** Python values *)

(** Values stored in table cells and in the connection dictionary. *)
Inductive scalar :=
| SNone
| SBool (b : bool)
| SInt (z : Z)
| SStr (s : string).

(** A pandas [DataFrame]: its columns in order, each with its cells. *)
Definition dataframe : Type := list (string * list scalar).

(** Modelled from the spec: the result of [vsql.run.run], whose module is
    not among the sources; a generic row/column result with a [keys]
    accessor and a dict-convertible form, kept here column by column. *)
Record result_set := {
  rs_keys : list string;
  rs_columns : list (list scalar)
}.

Inductive pyobj :=
| PNone
| PScalar (v : scalar)
| PDataFrame (df : dataframe)
| PSeries (cells : list scalar)
| PTuple (cells : list scalar)
| PResultSet (rs : result_set).

#[export] Instance scalar_eq_dec : EqDecision scalar.
Proof. solve_decision. Defined.
#[export] Instance result_set_eq_dec : EqDecision result_set.
Proof. solve_decision. Defined.
#[export] Instance pyobj_eq_dec : EqDecision pyobj.
Proof. solve_decision. Defined.

(** A Python [dict] with string keys. *)
Abbreviation dict := (gmap string pyobj).

(** ** Exceptions *)

Inductive exn :=
| AssertionError (msg : string)
| KeyError (key : string)
| NameError (name : string)
| AttributeError (msg : string)
| TypeError (msg : string)
| ProgrammingError (msg : string)
| OperationalError (msg : string)
| OtherException (cls msg : string)
| KeyboardInterrupt.

(** [isinstance(e, Exception)]: everything above but [KeyboardInterrupt],
    which derives from [BaseException] only. *)
Definition is_Exception (e : exn) : bool :=
  match e with
  | KeyboardInterrupt => false
  | _ => true
  end.

(** [isinstance(e, (ProgrammingError, OperationalError))]. *)
Definition is_database_error (e : exn) : bool :=
  match e with
  | ProgrammingError _ | OperationalError _ => true
  | _ => false
  end.

(** [str(e)], what [print(e)] writes. *)
Definition exn_str (e : exn) : string :=
  match e with
  | AssertionError msg => msg
  | KeyError key => "'" ++ key ++ "'"
  | NameError name => "name '" ++ name ++ "' is not defined"
  | AttributeError msg => msg
  | TypeError msg => msg
  | ProgrammingError msg => msg
  | OperationalError msg => msg
  | OtherException _ msg => msg
  | KeyboardInterrupt => ""
  end.

(** ** Pure fallible code: a value or a raised exception *)

Inductive result (A : Type) :=
| Ok (a : A)
| Err (e : exn).
Arguments Ok {A} a.
Arguments Err {A} e.

Definition result_bind {A B} (r : result A) (k : A -> result B) : result B :=
  match r with
  | Ok a => k a
  | Err e => Err e
  end.

Module ResultNotations.
Notation "'try!' x := r 'in' k" := (result_bind r (fun x => k))
  (at level 10, x name, r at level 100, k at level 200, only parsing).
Notation "'check!' r 'in' k" := (result_bind r (fun _ => k))
  (at level 10, r at level 100, k at level 200, only parsing).
End ResultNotations.
Import ResultNotations.

(** A dict display [{k1: v1, k2: v2, ...}]: entries are stored from left
    to right, so a later entry replaces an earlier one with the same key. *)
Definition py_dict {V} (items : list (string * V)) : gmap string V :=
  foldl (fun m kv => <[kv.1 := kv.2]> m) ∅ items.

(** ** The process environment and [get_connection_dict] *)

Abbreviation environment := (gmap string string).

(** [assert key in os.environ, msg] *)
Definition assert_in (key : string) (environ : environment) (msg : string)
  : result unit :=
  if bool_decide (is_Some (environ !! key)) then Ok tt
  else Err (AssertionError msg).

(** [os.environ[key]] *)
Definition environ_getitem (environ : environment) (key : string)
  : result scalar :=
  match environ !! key with
  | Some v => Ok (SStr v)
  | None => Err (KeyError key)
  end.

(** [os.environ.get(key, default)] *)
Definition environ_get (environ : environment) (key : string) (dflt : scalar)
  : scalar :=
  match environ !! key with
  | Some v => SStr v
  | None => dflt
  end.

Definition get_connection_dict (environ : environment)
  : result (gmap string scalar) :=
  check! assert_in "VERTICA_HOST" environ
    "Ensure that `vertica.host` is set in your environment." in
  check! assert_in "VERTICA_USER" environ
    "Ensure that `vertica.user` is set in your environment." in
  check! assert_in "VERTICA_PASSWORD" environ
    "Ensure that `vertica.password` is set in your environment." in
  check! assert_in "VERTICA_DB" environ
    "Ensure that `vertica.db` is set in your environment." in
  try! host := environ_getitem environ "VERTICA_HOST" in
  let port := environ_get environ "VERTICA_PORT" (SInt 5433) in
  try! user := environ_getitem environ "VERTICA_USER" in
  try! password := environ_getitem environ "VERTICA_PASSWORD" in
  try! database := environ_getitem environ "VERTICA_DB" in
  let session_label :=
    environ_get environ "VERTICA_LABEL" (SStr "vsql magic session") in
  let connection_timeout := environ_get environ "VERTICA_TIMEOUT" (SInt 5) in
  Ok (py_dict
        [("host", host);
         ("port", port);
         ("user", user);
         ("password", password);
         ("database", database);
         ("session_label", session_label);
         ("unicode_error", SStr "strict");
         ("ssl", SBool false);
         ("use_prepared_statements", SBool false);
         ("connection_timeout", connection_timeout)]).

(** ** Effects: the heap of dict objects, the event trace, completions *)

Definition loc := nat.

(** A connection handle of the driver. *)
Inductive conn := Conn (id : nat).

(** What a call lets the outside observe, in order. *)
Inductive event :=
| EvConnect (params : gmap string scalar)   (* vertica_python.connect called *)
| EvAcquired (c : conn)                     (* the handle is entered *)
| EvQuery (sql : string) (c : conn)         (* pd.read_sql called *)
| EvClose (c : conn)                        (* the handle is left: closed *)
| EvPrint (line : string).                  (* a line on standard output *)

Record state := { heap : gmap loc dict; trace : list event }.

(** How a statement ends: it falls through, executes [return], or raises. *)
Inductive completion (A : Type) :=
| Normal (a : A)
| Return (v : pyobj)
| Raise (e : exn).
Arguments Normal {A} a.
Arguments Return {A} v.
Arguments Raise {A} e.

Definition M (A : Type) : Type := state -> completion A * state.

#[export] Instance M_ret : MRet M := fun A a σ => (Normal a, σ).
#[export] Instance M_bind : MBind M := fun A B k c σ =>
  match c σ with
  | (Normal a, σ') => k a σ'
  | (Return v, σ') => (Return v, σ')
  | (Raise e, σ') => (Raise e, σ')
  end.

Definition return_ {A} (v : pyobj) : M A := fun σ => (Return v, σ).
Definition raise {A} (e : exn) : M A := fun σ => (Raise e, σ).

(** An answer of the outside world, raised when it is an exception. *)
Definition lift {A} (r : result A) : M A :=
  match r with
  | Ok a => mret a
  | Err e => raise e
  end.

Definition emit (ev : event) : M unit := fun σ =>
  (Normal tt, {| heap := heap σ; trace := trace σ ++ [ev] |}).

(** [print(s)] *)
Definition print (s : string) : M unit := emit (EvPrint s).

(** Reading the dict object behind a reference. *)
Definition dict_load (l : loc) : M dict := fun σ =>
  (Normal (default ∅ (heap σ !! l)), σ).

(** [d.copy()]: a new dict object with the same entries. *)
Definition dict_copy (l : loc) : M loc := fun σ =>
  let l' := fresh (dom (heap σ)) in
  (Normal l',
   {| heap := <[l' := default ∅ (heap σ !! l)]> (heap σ); trace := trace σ |}).

(** [d.update(other)]: the object behind [l] is changed in place. *)
Definition dict_update (l : loc) (other : dict) : M unit := fun σ =>
  (Normal tt,
   {| heap := <[l := other ∪ default ∅ (heap σ !! l)]> (heap σ);
      trace := trace σ |}).

(** [try: body except <matches> as e: handler e] *)
Definition try_except {A} (body : M A) (matches : exn -> bool)
    (handler : exn -> M A) : M A := fun σ =>
  match body σ with
  | (Raise e, σ') => if matches e then handler e σ' else (Raise e, σ')
  | other => other
  end.

(** ** Names bound at module level *)

Definition module_globals : list string :=
  ["re"; "Magics"; "magics_class"; "cell_magic"; "line_magic";
   "needs_local_scope"; "display_javascript"; "Configurable"; "Bool"; "Int";
   "Unicode"; "DataFrame"; "Series"; "ProgrammingError"; "OperationalError";
   "vsql"; "vertica_python"; "os"; "pd"; "get_connection_dict";
   "VerticaSqlMagic"; "load_ipython_extension"].

(** Reading the name of a module or of a function of the module:
    [NameError] when no statement at module level binds it (the names
    used here are no builtins). *)
Definition load_global (name : string) : M unit :=
  if bool_decide (name ∈ module_globals) then mret tt
  else raise (NameError name).

(** ** The magic's configuration and the outside world *)

(** The configurable traits of [VerticaSqlMagic]. *)
Record Config := {
  autolimit : option Z;
  style : string;
  short_errors : bool;
  displaylimit : option Z;
  autopandas : bool;
  column_local_vars : bool;
  feedback : bool;
  dsn_filename : string;
  autocommit : bool
}.

(** The defaults the class declares. *)
Definition default_config : Config :=
  {| autolimit := Some 0%Z;
     style := "DEFAULT";
     short_errors := true;
     displaylimit := None;
     autopandas := false;
     column_local_vars := false;
     feedback := true;
     dsn_filename := "odbc.ini";
     autocommit := true |}.

(** [self]: the traits, and the reference [self.shell.user_ns] to the
    namespace dict that the notebook shares with the magic. *)
Record magic := { config : Config; shell_user_ns : loc }.

(** Modelled from the spec: the value of [vsql.parse.parse], whose module
    is not among the sources; the spec's ParsedInvocation with its SQL
    text, its mapping of flag names to values and its optional connection
    reference. [execute] reads the entries [sql] and [flags]. *)
Record parsed := {
  p_sql : string;
  p_flags : gmap string string;
  p_connection : option string
}.

(** The answers of the collaborators of one call. [tell_format] and [run]
    stand for [sql.connection.Connection.tell_format] and [sql.run.run],
    which the module would call if it bound the name [sql]. *)
Record World := {
  environ : environment;
  parse : string -> Config -> result parsed;
  connect : gmap string scalar -> result conn;
  read_sql : string -> conn -> result dataframe;
  tell_format : result string;
  run : conn -> string -> Config -> dict -> result pyobj
}.

(** ** The [with] statement over a driver connection *)

(** [with mgr as conn: body]. The driver's connection is its own context
    manager: entering yields the connection, leaving closes it and does
    not swallow an exception. The handle is left on every completion of
    the body. *)
Definition leaving {A} (body : M A) (exit : M unit) : M A := fun σ =>
  let '(r, σ') := body σ in
  let '(_, σ'') := exit σ' in
  (r, σ'').

Definition with_ {A} (mgr : M conn) (body : conn -> M A) : M A :=
  c ← mgr;
  emit (EvAcquired c);;
  leaving (body c) (emit (EvClose c)).

(** [vertica_python.connect] called with the entries of [params] as its
    keyword arguments *)
Definition vertica_connect (W : World) (params : gmap string scalar)
  : M conn :=
  emit (EvConnect params);;
  lift (connect W params).

(** [pd.read_sql(sql, conn)] *)
Definition pd_read_sql (W : World) (sql : string) (c : conn) : M dataframe :=
  emit (EvQuery sql c);;
  lift (read_sql W sql c).

(** ** Helpers of the statements after the first [try] *)

Definition newline : string := String (Ascii.ascii_of_nat 10) "".

Definition is_None (o : pyobj) : bool :=
  match o with PNone => true | _ => false end.

(** [isinstance(o, str)] *)
Definition is_str (o : pyobj) : bool :=
  match o with PScalar (SStr _) => true | _ => false end.

(** [result.keys()] *)
Definition keys_call (o : pyobj) : result (list string) :=
  match o with
  | PDataFrame df => Ok (df.*1)
  | PResultSet _ => Err (TypeError "'list' object is not callable")
  | _ => Err (AttributeError "object has no attribute 'keys'")
  end.

(** [keys = result.keys] followed by [result = result.dict()] *)
Definition keys_and_dict (o : pyobj) : result (list string * dict) :=
  match o with
  | PResultSet rs =>
      Ok (rs_keys rs, py_dict (zip (rs_keys rs) (PTuple <$> rs_columns rs)))
  | _ => Err (AttributeError "object has no attribute 'dict'")
  end.

(** What [dict.update(result)] reads from a dataframe: each column name
    with its column. *)
Definition frame_items (o : pyobj) : dict :=
  match o with
  | PDataFrame df => py_dict (prod_map id PSeries <$> df)
  | _ => ∅
  end.

(** [flags.get(name)] as an [if] reads it: the value when the flag is
    there and not the empty string. *)
Definition flags_get_truthy (flags : gmap string string) (name : string)
  : option string :=
  match flags !! name with
  | Some v => if bool_decide (v = "") then None else Some v
  | None => None
  end.

(** [', '.join(keys)] *)
Definition join (sep : string) (l : list string) : string :=
  String.concat sep l.

(** ** [VerticaSqlMagic.execute] *)

Section Execute.
Variable W : World.
Variable self : magic.

(** Lines 116-126: the direct path. Both the [with] body and the handler
    leave by [return] or by raising; the value passed on is the local
    [conn] as a following statement would read it. *)
Definition direct_body (p : parsed) : M conn :=
  load_global "vertica_python";;
  load_global "get_connection_dict";;
  params ← lift (get_connection_dict (environ W));
  with_ (vertica_connect W params) (fun conn =>
    load_global "pd";;
    result ← pd_read_sql W (p_sql p) conn;
    return_ (PDataFrame result)).

Definition direct_handler (e : exn) : M conn :=
  print (exn_str e);;
  load_global "sql";;
  s ← lift (tell_format W);
  print s;;
  return_ PNone.

Definition direct_path (p : parsed) : M conn :=
  try_except (direct_body p) is_Exception direct_handler.

(** Lines 128-164: the path taken from ipython-sql. *)
Definition legacy_path (p : parsed) (flags : gmap string string)
    (conn : conn) (user_ns : loc) : M unit :=
  try_except
    (load_global "sql";;
     ns ← dict_load user_ns;
     result ← lift (run W conn (p_sql p) (config self) ns);
     if negb (is_None result) && negb (is_str result)
        && column_local_vars (config self)
     then
       '(keys, items) ←
          (if autopandas (config self)
           then keys ← lift (keys_call result);
                mret (keys, frame_items result)
           else lift (keys_and_dict result));
       (if feedback (config self)
        then print ("Returning data to local variables ["
                      ++ join ", " keys ++ "]")
        else mret tt);;
       dict_update (shell_user_ns self) items;;
       return_ PNone
     else
       match flags_get_truthy flags "result_var" with
       | Some result_var =>
           print ("Returning data to local variable " ++ result_var);;
           dict_update (shell_user_ns self) {[ result_var := result ]};;
           return_ PNone
       | None => return_ result
       end)
    is_database_error
    (fun e =>
       if short_errors (config self) then print (exn_str e)
       else raise e).

Definition execute (line cell : string) (local_ns : loc) : M unit :=
  user_ns ← dict_copy (shell_user_ns self);
  locals ← dict_load local_ns;
  dict_update user_ns locals;;
  load_global "vsql";;
  p ← lift (parse W (line ++ newline ++ cell) (config self));
  let flags := p_flags p in
  conn ← direct_path p;
  legacy_path p flags conn user_ns.
End Execute.

(** ** A call of the magic, as the notebook sees it *)

(** The function-call boundary: falling off the end returns [None]. *)
Definition call (body : M unit) (σ : state) : result pyobj * state :=
  match body σ with
  | (Normal _, σ') => (Ok PNone, σ')
  | (Return v, σ') => (Ok v, σ')
  | (Raise e, σ') => (Err e, σ')
  end.

(** The [local_ns] argument: the notebook's namespace object itself (a
    magic used at top level) or another dict (the default [{}] included). *)
Inductive local_scope :=
| LocalIsUserNs
| LocalDict (d : dict).

(** What one call leaves behind. *)
Record report := {
  outcome : result pyobj;
  user_ns_after : dict;
  events : list event
}.

Definition user_ns_loc : loc := 0.

Definition initial_heap (user_ns : dict) (local : local_scope)
  : gmap loc dict * loc :=
  match local with
  | LocalIsUserNs => ({[ user_ns_loc := user_ns ]}, user_ns_loc)
  | LocalDict d => (<[ 1 := d ]> {[ user_ns_loc := user_ns ]}, 1)
  end.

Definition invoke (W : World) (cfg : Config) (line cell : string)
    (user_ns : dict) (local : local_scope) : report :=
  let self := {| config := cfg; shell_user_ns := user_ns_loc |} in
  let '(h, local_ns) := initial_heap user_ns local in
  let '(r, σ) := call (execute W self line cell local_ns)
                      {| heap := h; trace := [] |} in
  {| outcome := r;
     user_ns_after := default ∅ (heap σ !! user_ns_loc);
     events := trace σ |}.

(** *** Observations on a report *)

(** The lines written to standard output, in order. *)
Definition printed (evs : list event) : list string :=
  omap (fun ev => match ev with EvPrint s => Some s | _ => None end) evs.

Definition is_connect (ev : event) : bool :=
  match ev with EvConnect _ => true | _ => false end.

Definition is_query (ev : event) : bool :=
  match ev with EvQuery _ _ => true | _ => false end.

Definition is_close (ev : event) : bool :=
  match ev with EvClose _ => true | _ => false end.

(** The handles still open after the events, oldest first, starting from
    the handles [opened]; closing a handle that is not open is recorded
    by [None]. *)
Fixpoint open_handles (opened : list conn) (evs : list event)
  : option (list conn) :=
  match evs with
  | [] => Some opened
  | EvAcquired c :: evs' => open_handles (opened ++ [c]) evs'
  | EvClose (Conn i) :: evs' =>
      if existsb (fun '(Conn j) => Nat.eqb i j) opened
      then open_handles
             (List.filter (fun '(Conn j) => negb (Nat.eqb i j)) opened) evs'
      else None
  | _ :: evs' => open_handles opened evs'
  end.

(** The call handed a result value to its caller. *)
Definition returned_value (r : report) : option pyobj :=
  match outcome r with
  | Ok PNone => None
  | Ok v => Some v
  | Err _ => None
  end.

(** ** Concrete worlds *)

Module Sample.
Definition env : environment :=
  py_dict [("VERTICA_HOST", "db.example.org"); ("VERTICA_USER", "dbadmin");
           ("VERTICA_PASSWORD", "secret"); ("VERTICA_DB", "sales")].

Definition table : dataframe :=
  [("a", [SInt 1; SInt 2]); ("b", [SStr "x"; SStr "y"])].

Definition plain (line : string) : parsed :=
  {| p_sql := line; p_flags := ∅; p_connection := None |}.

Definition into (var : string) (line : string) : parsed :=
  {| p_sql := line; p_flags := {[ "result_var" := var ]};
     p_connection := None |}.

(** Everything works; the query yields [table]. *)
Definition good (pr : string -> parsed) : World :=
  {| environ := env;
     parse := fun text _ => Ok (pr text);
     connect := fun _ => Ok (Conn 7);
     read_sql := fun _ _ => Ok table;
     tell_format := Ok "Format: (alias)user@db";
     run := fun _ _ _ _ => Ok (PDataFrame table) |}.

(** The query raises [e]. *)
Definition failing_query (e : exn) : World :=
  {| environ := env;
     parse := fun text _ => Ok (plain text);
     connect := fun _ => Ok (Conn 7);
     read_sql := fun _ _ => Err e;
     tell_format := Ok "Format: (alias)user@db";
     run := fun _ _ _ _ => Err e |}.

(** The driver cannot connect. *)
Definition no_server (e : exn) : World :=
  {| environ := env;
     parse := fun text _ => Ok (plain text);
     connect := fun _ => Err e;
     read_sql := fun _ _ => Ok table;
     tell_format := Ok "Format: (alias)user@db";
     run := fun _ _ _ _ => Ok (PDataFrame table) |}.

(** [VERTICA_HOST] is not set. *)
Definition no_host : World :=
  {| environ := delete "VERTICA_HOST" env;
     parse := fun text _ => Ok (plain text);
     connect := fun _ => Ok (Conn 7);
     read_sql := fun _ _ => Ok table;
     tell_format := Ok "Format: (alias)user@db";
     run := fun _ _ _ _ => Ok (PDataFrame table) |}.

Definition ns : dict := {[ "x" := PScalar (SInt 1) ]}.

(** The default configuration with four of its switches set. *)
Definition switches (short pandas columns fb : bool) : Config :=
  {| autolimit := Some 0%Z;
     style := "DEFAULT";
     short_errors := short;
     displaylimit := None;
     autopandas := pandas;
     column_local_vars := columns;
     feedback := fb;
     dsn_filename := "odbc.ini";
     autocommit := true |}.
End Sample.

(** ** [VerticaSqlMagic.legal_sql_identifier] *)

(** The character class [[A-Za-z0-9#_$]] of the pattern. *)
Definition legal_char (a : Ascii.ascii) : bool :=
  let n := Ascii.nat_of_ascii a in
  (((65 <=? n) && (n <=? 90))
   || ((97 <=? n) && (n <=? 122))
   || ((48 <=? n) && (n <=? 57))
   || (n =? 35) || (n =? 95) || (n =? 36))%nat.

(** The longest prefix of [s] whose characters are all in the class: what
    the greedy [+] takes. *)
Fixpoint legal_prefix (s : string) : string :=
  match s with
  | String a s' => if legal_char a then String a (legal_prefix s') else ""
  | EmptyString => ""
  end.

(** [legal_sql_identifier.match(s)]: [None] when nothing matches, and
    otherwise the text [group(0)] of the match. The pattern is anchored at
    the start of the string and asks for one character of the class at
    least. *)
Definition legal_sql_identifier_match (s : string) : option string :=
  match legal_prefix s with
  | EmptyString => None
  | m => Some m
  end.

(** ** Vocabulary of the statements below *)

(** The state [σ] after the events [evs] more. *)
Definition after (σ : state) (evs : list event) : state :=
  {| heap := heap σ; trace := trace σ ++ evs |}.

(** How a failure inside the first [try] ends, after the events [evs]. *)
Definition failure (σ : state) (evs : list event) (e : exn)
  : completion conn * state :=
  if is_Exception e
  then (Raise (NameError "sql"), after σ (evs ++ [EvPrint (exn_str e)]))
  else (Raise e, after σ evs).

(** The state in which the first [try] starts: the copy of the namespace
    sits in a new object, updated with the entries of [local_ns]. *)
Definition prelude_state (shell local_ns : loc) (σ : state) : state :=
  let user_ns := fresh (dom (heap σ)) in
  let h1 := <[user_ns := default ∅ (heap σ !! shell)]> (heap σ) in
  {| heap := <[user_ns := default ∅ (h1 !! local_ns)
                            ∪ default ∅ (h1 !! user_ns)]> h1;
     trace := trace σ |}.

(** The outcome and the events of a call that failed inside the first
    [try] with [e], after the driver events [evs]. *)
Definition failure_outcome (e : exn) : result pyobj :=
  if is_Exception e then Err (NameError "sql") else Err e.

Definition failure_events (evs : list event) (e : exn) : list event :=
  if is_Exception e then evs ++ [EvPrint (exn_str e)] else evs.

Definition no_host_message : string :=
  "Ensure that `vertica.host` is set in your environment.".

Definition returns_result (r : report) : bool :=
  bool_decide (is_Some (returned_value r)).

Definition binds_names (ns : dict) (r : report) : bool :=
  bool_decide (user_ns_after r ≠ ns).

Definition prints_error (r : report) : bool :=
  bool_decide (printed (events r) ≠ []).

(** How many of the three occur in a call that started with the
    namespace [ns]. *)
Definition outcomes (ns : dict) (r : report) : nat :=
  Nat.b2n (returns_result r) + Nat.b2n (binds_names ns r)
  + Nat.b2n (prints_error r).

(** The call is ended by an exception that no handler of [execute]
    takes: one of the parser, raised before the first [try], or one from
    inside the first [try] that is no [Exception]. *)
Definition escapes (W : World) (cfg : Config) (text : string) : bool :=
  match parse W text cfg with
  | Err _ => true
  | Ok p =>
      match get_connection_dict (environ W) with
      | Err e => negb (is_Exception e)
      | Ok d =>
          match connect W d with
          | Err e => negb (is_Exception e)
          | Ok c =>
              match read_sql W (p_sql p) c with
              | Err e => negb (is_Exception e)
              | Ok _ => false
              end
          end
      end
  end.

(** * Properties *)

(** ** How the statements run *)

Lemma load_global_bound name :
  name ∈ module_globals -> load_global name = mret tt.
Proof.
  intros H. unfold load_global. by rewrite bool_decide_eq_true_2.
Qed.

Lemma sql_unbound : "sql" ∉ module_globals.
Proof. apply (bool_decide_unpack _). by vm_compute. Qed.

Lemma load_global_sql : load_global "sql" = raise (NameError "sql").
Proof.
  unfold load_global. by rewrite bool_decide_eq_false_2 by apply sql_unbound.
Qed.

Lemma bound_vertica_python : "vertica_python" ∈ module_globals.
Proof. apply (bool_decide_unpack _). by vm_compute. Qed.
Lemma bound_get_connection_dict : "get_connection_dict" ∈ module_globals.
Proof. apply (bool_decide_unpack _). by vm_compute. Qed.
Lemma bound_pd : "pd" ∈ module_globals.
Proof. apply (bool_decide_unpack _). by vm_compute. Qed.
Lemma bound_vsql : "vsql" ∈ module_globals.
Proof. apply (bool_decide_unpack _). by vm_compute. Qed.

Ltac step_globals :=
  rewrite ?(load_global_bound _ bound_vertica_python),
          ?(load_global_bound _ bound_get_connection_dict),
          ?(load_global_bound _ bound_pd),
          ?(load_global_bound _ bound_vsql),
          ?load_global_sql.

Ltac run_monad :=
  unfold with_, leaving, vertica_connect, pd_read_sql, print, emit, lift,
    return_, raise, mbind, M_bind, mret, M_ret, after; simpl.

Section Runs.
Context (W : World) (p : parsed) (σ : state).

(** The handler prints the exception and then fails on the name [sql]. *)
Lemma direct_handler_run e :
  direct_handler W e σ
  = (Raise (NameError "sql"), after σ [EvPrint (exn_str e)]).
Proof. unfold direct_handler. step_globals. by run_monad. Qed.

Lemma direct_body_config_error e :
  get_connection_dict (environ W) = Err e ->
  direct_body W p σ = (Raise e, σ).
Proof.
  intros H. unfold direct_body. step_globals. rewrite H. by run_monad.
Qed.

Lemma direct_body_connect_error d e :
  get_connection_dict (environ W) = Ok d ->
  connect W d = Err e ->
  direct_body W p σ = (Raise e, after σ [EvConnect d]).
Proof.
  intros Hd Hc. unfold direct_body. step_globals. rewrite Hd.
  run_monad. by rewrite Hc.
Qed.

Lemma direct_body_query_error d c e :
  get_connection_dict (environ W) = Ok d ->
  connect W d = Ok c ->
  read_sql W (p_sql p) c = Err e ->
  direct_body W p σ
  = (Raise e,
     after σ [EvConnect d; EvAcquired c; EvQuery (p_sql p) c; EvClose c]).
Proof.
  intros Hd Hc Hq. unfold direct_body. step_globals. rewrite Hd.
  run_monad. rewrite Hc. simpl. rewrite Hq. simpl.
  by rewrite <- !app_assoc.
Qed.

Lemma direct_body_success d c df :
  get_connection_dict (environ W) = Ok d ->
  connect W d = Ok c ->
  read_sql W (p_sql p) c = Ok df ->
  direct_body W p σ
  = (Return (PDataFrame df),
     after σ [EvConnect d; EvAcquired c; EvQuery (p_sql p) c; EvClose c]).
Proof.
  intros Hd Hc Hq. unfold direct_body. step_globals. rewrite Hd.
  run_monad. rewrite Hc. simpl. rewrite Hq. simpl.
  by rewrite <- !app_assoc.
Qed.
End Runs.

(** [try ... except] by the completion of its body. *)
Lemma try_except_caught {A} (body : M A) matches handler σ e σ' :
  body σ = (Raise e, σ') -> matches e = true ->
  try_except body matches handler σ = handler e σ'.
Proof. intros Hb Hm. unfold try_except. by rewrite Hb, Hm. Qed.

Lemma try_except_missed {A} (body : M A) matches handler σ e σ' :
  body σ = (Raise e, σ') -> matches e = false ->
  try_except body matches handler σ = (Raise e, σ').
Proof. intros Hb Hm. unfold try_except. by rewrite Hb, Hm. Qed.

Lemma try_except_return {A} (body : M A) matches handler σ v σ' :
  body σ = (Return v, σ') ->
  try_except body matches handler σ = (Return v, σ').
Proof. intros Hb. unfold try_except. by rewrite Hb. Qed.

Lemma direct_path_failure W p σ evs e :
  direct_body W p σ = (Raise e, after σ evs) ->
  direct_path W p σ = failure σ evs e.
Proof.
  intros Hb. unfold direct_path, failure. destruct (is_Exception e) eqn:He.
  - rewrite (try_except_caught _ _ _ _ _ _ Hb He), direct_handler_run.
    unfold after; simpl. by rewrite <- app_assoc.
  - by rewrite (try_except_missed _ _ _ _ _ _ Hb He).
Qed.

Lemma after_nil σ : after σ [] = σ.
Proof. destruct σ. unfold after; simpl. by rewrite app_nil_r. Qed.

(** ** The statements before the first [try] *)

Lemma prelude_frame shell local_ns σ l :
  l ∈ dom (heap σ) ->
  heap (prelude_state shell local_ns σ) !! l = heap σ !! l.
Proof.
  intros Hl. unfold prelude_state; simpl.
  assert (fresh (dom (heap σ)) ≠ l) as Hne.
  { intros <-. by apply (is_fresh (dom (heap σ))). }
  by rewrite !lookup_insert_ne.
Qed.

Lemma execute_unfold W self line cell local_ns σ :
  execute W self line cell local_ns σ
  = match parse W (line ++ newline ++ cell) (config self) with
    | Err e => (Raise e, prelude_state (shell_user_ns self) local_ns σ)
    | Ok p =>
        match direct_path W p (prelude_state (shell_user_ns self) local_ns σ)
        with
        | (Normal c, σ') =>
            legacy_path W self p (p_flags p) c (fresh (dom (heap σ))) σ'
        | (Return v, σ') => (Return v, σ')
        | (Raise e, σ') => (Raise e, σ')
        end
    end.
Proof.
  unfold execute. step_globals.
  unfold mbind, M_bind, mret, M_ret, dict_copy, dict_load, dict_update, lift,
    raise, prelude_state; simpl.
  by destruct (parse W _ _).
Qed.

(** The first [try] never falls through to the statements after it. *)
Lemma direct_path_exits W p σ c σ' : direct_path W p σ ≠ (Normal c, σ').
Proof.
  unfold direct_path, try_except, direct_body. step_globals.
  destruct (get_connection_dict (environ W)) as [d|e]; run_monad.
  2: { destruct (is_Exception e); [|done].
       rewrite direct_handler_run. done. }
  destruct (connect W d) as [k|e]; simpl.
  2: { destruct (is_Exception e); [|done].
       rewrite direct_handler_run. done. }
  destruct (read_sql W (p_sql p) k) as [df|e]; simpl; [done|].
  destruct (is_Exception e); [|done].
  rewrite direct_handler_run. done.
Qed.

(** ** One call, case by case *)

Lemma initial_heap_shell ns local :
  (initial_heap ns local).1 !! user_ns_loc = Some ns.
Proof.
  destruct local; simpl.
  - apply lookup_singleton_eq.
  - rewrite lookup_insert_ne by done. apply lookup_singleton_eq.
Qed.

Lemma prelude_keeps_shell ns local evs :
  let '(h, local_ns) := initial_heap ns local in
  default ∅ (heap (after (prelude_state user_ns_loc local_ns
                            {| heap := h; trace := [] |}) evs)
               !! user_ns_loc) = ns.
Proof.
  pose proof (initial_heap_shell ns local) as Hs.
  destruct (initial_heap ns local) as [h l].
  change (heap (after ?s evs)) with (heap s).
  rewrite prelude_frame.
  - simpl in *. by rewrite Hs.
  - apply elem_of_dom. simpl in *. by rewrite Hs.
Qed.

(** A parser that raises ends the call at once. *)
Lemma invoke_parse_error W cfg line cell ns local e :
  parse W (line ++ newline ++ cell) cfg = Err e ->
  invoke W cfg line cell ns local
  = {| outcome := Err e; user_ns_after := ns; events := [] |}.
Proof.
  intros Hp. unfold invoke.
  pose proof (prelude_keeps_shell ns local []) as Hk.
  destruct (initial_heap ns local) as [h l].
  unfold call. rewrite execute_unfold; simpl. rewrite Hp.
  rewrite after_nil in Hk. by rewrite Hk.
Qed.

(** A call whose first [try] ends with [r] after the events [evs]. *)
Lemma invoke_direct W cfg line cell ns local p r evs :
  parse W (line ++ newline ++ cell) cfg = Ok p ->
  (forall σ, direct_path W p σ = (r, after σ evs)) ->
  invoke W cfg line cell ns local
  = {| outcome := match r with
                  | Return v => Ok v
                  | Raise e => Err e
                  | Normal _ => Ok PNone
                  end;
       user_ns_after := ns;
       events := evs |}.
Proof.
  intros Hp Hd. unfold invoke.
  pose proof (prelude_keeps_shell ns local evs) as Hk.
  destruct (initial_heap ns local) as [h l].
  unfold call. rewrite execute_unfold; simpl. rewrite Hp, Hd.
  destruct r as [c|v|e].
  - exfalso. exact (direct_path_exits _ _ _ _ _ (Hd {| heap := h; trace := [] |})).
  - by rewrite Hk.
  - by rewrite Hk.
Qed.

Lemma invoke_failed W cfg line cell ns local p e evs :
  parse W (line ++ newline ++ cell) cfg = Ok p ->
  (forall σ, direct_body W p σ = (Raise e, after σ evs)) ->
  invoke W cfg line cell ns local
  = {| outcome := failure_outcome e;
       user_ns_after := ns;
       events := failure_events evs e |}.
Proof.
  intros Hp Hb. unfold failure_outcome, failure_events.
  destruct (is_Exception e) eqn:He.
  - apply (invoke_direct _ _ _ _ _ _ p (Raise (NameError "sql"))); [done|].
    intros σ. rewrite (direct_path_failure _ _ _ _ _ (Hb σ)).
    unfold failure. by rewrite He.
  - apply (invoke_direct _ _ _ _ _ _ p (Raise e)); [done|].
    intros σ. rewrite (direct_path_failure _ _ _ _ _ (Hb σ)).
    unfold failure. by rewrite He.
Qed.

Section Cases.
Context (W : World) (cfg : Config) (line cell : string).
Context (ns : dict) (local : local_scope) (p : parsed).
Hypothesis Hparse : parse W (line ++ newline ++ cell) cfg = Ok p.

Lemma invoke_config_error e :
  get_connection_dict (environ W) = Err e ->
  invoke W cfg line cell ns local
  = {| outcome := failure_outcome e;
       user_ns_after := ns;
       events := failure_events [] e |}.
Proof.
  intros Hd. apply (invoke_failed _ _ _ _ _ _ p); [done|].
  intros σ. rewrite after_nil. by apply direct_body_config_error.
Qed.

Lemma invoke_connect_error d e :
  get_connection_dict (environ W) = Ok d ->
  connect W d = Err e ->
  invoke W cfg line cell ns local
  = {| outcome := failure_outcome e;
       user_ns_after := ns;
       events := failure_events [EvConnect d] e |}.
Proof.
  intros Hd Hc. apply (invoke_failed _ _ _ _ _ _ p); [done|].
  intros σ. by apply direct_body_connect_error.
Qed.

Lemma invoke_query_error d c e :
  get_connection_dict (environ W) = Ok d ->
  connect W d = Ok c ->
  read_sql W (p_sql p) c = Err e ->
  invoke W cfg line cell ns local
  = {| outcome := failure_outcome e;
       user_ns_after := ns;
       events := failure_events
                   [EvConnect d; EvAcquired c; EvQuery (p_sql p) c;
                    EvClose c] e |}.
Proof.
  intros Hd Hc Hq. apply (invoke_failed _ _ _ _ _ _ p); [done|].
  intros σ. by apply direct_body_query_error.
Qed.

Lemma invoke_success d c df :
  get_connection_dict (environ W) = Ok d ->
  connect W d = Ok c ->
  read_sql W (p_sql p) c = Ok df ->
  invoke W cfg line cell ns local
  = {| outcome := Ok (PDataFrame df);
       user_ns_after := ns;
       events := [EvConnect d; EvAcquired c; EvQuery (p_sql p) c;
                  EvClose c] |}.
Proof.
  intros Hd Hc Hq.
  apply (invoke_direct _ _ _ _ _ _ p (Return (PDataFrame df))); [done|].
  intros σ. unfold direct_path.
  by rewrite (try_except_return _ _ _ _ _ _
                (direct_body_success _ _ σ _ _ _ Hd Hc Hq)).
Qed.
End Cases.

(** Every call is one of the five above. *)
Ltac invoke_cases W cfg line cell ns local :=
  let p := fresh "p" in
  let d := fresh "d" in
  let c := fresh "c" in
  let df := fresh "df" in
  let e := fresh "e" in
  let Hp := fresh "Hparse" in
  let Hd := fresh "Hdict" in
  let Hc := fresh "Hconn" in
  let Hq := fresh "Hquery" in
  destruct (parse W (line ++ newline ++ cell) cfg) as [p|e] eqn:Hp;
  [ destruct (get_connection_dict (environ W)) as [d|e] eqn:Hd;
    [ destruct (connect W d) as [c|e] eqn:Hc;
      [ destruct (read_sql W (p_sql p) c) as [df|e] eqn:Hq;
        [ rewrite (invoke_success W cfg line cell ns local p Hp d c df
                     Hd Hc Hq)
        | rewrite (invoke_query_error W cfg line cell ns local p Hp d c e
                     Hd Hc Hq) ]
      | rewrite (invoke_connect_error W cfg line cell ns local p Hp d e
                   Hd Hc) ]
    | rewrite (invoke_config_error W cfg line cell ns local p Hp e Hd) ]
  | rewrite (invoke_parse_error W cfg line cell ns local e Hp) ].

(** ** [get_connection_dict] *)

Lemma assert_in_ok key (environ : environment) msg v :
  environ !! key = Some v -> assert_in key environ msg = Ok tt.
Proof.
  intros H. unfold assert_in. rewrite bool_decide_eq_true_2; [done|].
  by rewrite H.
Qed.

Lemma assert_in_fails key (environ : environment) msg :
  environ !! key = None ->
  assert_in key environ msg = Err (AssertionError msg).
Proof.
  intros H. unfold assert_in. rewrite bool_decide_eq_false_2; [done|].
  rewrite H. by intros [? ?].
Qed.

(** The only failure of [get_connection_dict] is a failed assertion. *)
Lemma get_connection_dict_error (environ : environment) e :
  get_connection_dict environ = Err e -> exists msg, e = AssertionError msg.
Proof.
  unfold get_connection_dict, environ_getitem.
  destruct (environ !! "VERTICA_HOST") as [h|] eqn:Hh.
  2: { rewrite (assert_in_fails _ _ _ Hh). simpl. intros [= <-]. eauto. }
  rewrite (assert_in_ok _ _ _ _ Hh); simpl.
  destruct (environ !! "VERTICA_USER") as [u|] eqn:Hu.
  2: { rewrite (assert_in_fails _ _ _ Hu). simpl. intros [= <-]. eauto. }
  rewrite (assert_in_ok _ _ _ _ Hu); simpl.
  destruct (environ !! "VERTICA_PASSWORD") as [pw|] eqn:Hpw.
  2: { rewrite (assert_in_fails _ _ _ Hpw). simpl. intros [= <-]. eauto. }
  rewrite (assert_in_ok _ _ _ _ Hpw); simpl.
  destruct (environ !! "VERTICA_DB") as [db|] eqn:Hdb.
  2: { rewrite (assert_in_fails _ _ _ Hdb). simpl. intros [= <-]. eauto. }
  rewrite (assert_in_ok _ _ _ _ Hdb); simpl.
  done.
Qed.

Lemma get_connection_dict_ok (environ : environment) h u pw db :
  environ !! "VERTICA_HOST" = Some h ->
  environ !! "VERTICA_USER" = Some u ->
  environ !! "VERTICA_PASSWORD" = Some pw ->
  environ !! "VERTICA_DB" = Some db ->
  get_connection_dict environ
  = Ok (py_dict
          [("host", SStr h);
           ("port", environ_get environ "VERTICA_PORT" (SInt 5433));
           ("user", SStr u);
           ("password", SStr pw);
           ("database", SStr db);
           ("session_label",
            environ_get environ "VERTICA_LABEL" (SStr "vsql magic session"));
           ("unicode_error", SStr "strict");
           ("ssl", SBool false);
           ("use_prepared_statements", SBool false);
           ("connection_timeout",
            environ_get environ "VERTICA_TIMEOUT" (SInt 5))]).
Proof.
  intros Hh Hu Hpw Hdb. unfold get_connection_dict, environ_getitem.
  rewrite (assert_in_ok _ _ _ _ Hh), (assert_in_ok _ _ _ _ Hu),
    (assert_in_ok _ _ _ _ Hpw), (assert_in_ok _ _ _ _ Hdb).
  simpl. by rewrite Hh, Hu, Hpw, Hdb.
Qed.

Lemma get_connection_dict_no_host (environ : environment) :
  environ !! "VERTICA_HOST" = None ->
  get_connection_dict environ
  = Err (AssertionError
           "Ensure that `vertica.host` is set in your environment.").
Proof.
  intros Hh. unfold get_connection_dict.
  by rewrite (assert_in_fails _ _ _ Hh).
Qed.

(** C8: in every environment that sets the four mandatory variables,
    [get_connection_dict] returns a dictionary whose [host], [user],
    [password] and [database] are the values of VERTICA_HOST, VERTICA_USER,
    VERTICA_PASSWORD and VERTICA_DB, whose [port] is 5433 when VERTICA_PORT
    is unset, whose [session_label] is the fixed string
    [vsql magic session] when VERTICA_LABEL is unset, and whose
    [connection_timeout] is 5 when VERTICA_TIMEOUT is unset. *)
Theorem get_connection_dict_defaults (environ : environment) h u pw db :
  environ !! "VERTICA_HOST" = Some h ->
  environ !! "VERTICA_USER" = Some u ->
  environ !! "VERTICA_PASSWORD" = Some pw ->
  environ !! "VERTICA_DB" = Some db ->
  exists d : gmap string scalar,
    get_connection_dict environ = Ok d
    /\ d !! "host" = Some (SStr h)
    /\ d !! "user" = Some (SStr u)
    /\ d !! "password" = Some (SStr pw)
    /\ d !! "database" = Some (SStr db)
    /\ (environ !! "VERTICA_PORT" = None -> d !! "port" = Some (SInt 5433))
    /\ (environ !! "VERTICA_LABEL" = None ->
        d !! "session_label" = Some (SStr "vsql magic session"))
    /\ (environ !! "VERTICA_TIMEOUT" = None ->
        d !! "connection_timeout" = Some (SInt 5)).
Proof.
  intros Hh Hu Hpw Hdb. eexists. split.
  { by apply get_connection_dict_ok. }
  unfold environ_get.
  repeat split; try (intros ->); by vm_compute.
Qed.

Lemma get_connection_dict_defaults_witness :
  exists d : gmap string scalar,
    get_connection_dict Sample.env = Ok d
    /\ d !! "host" = Some (SStr "db.example.org")
    /\ d !! "user" = Some (SStr "dbadmin")
    /\ d !! "password" = Some (SStr "secret")
    /\ d !! "database" = Some (SStr "sales")
    /\ (Sample.env !! "VERTICA_PORT" = None ->
        d !! "port" = Some (SInt 5433))
    /\ (Sample.env !! "VERTICA_LABEL" = None ->
        d !! "session_label" = Some (SStr "vsql magic session"))
    /\ (Sample.env !! "VERTICA_TIMEOUT" = None ->
        d !! "connection_timeout" = Some (SInt 5)).
Proof.
  apply (get_connection_dict_defaults Sample.env); by vm_compute.
Defined.

(** ** The missing host *)

(** C5: when VERTICA_HOST is not in the environment, building the
    connection parameters fails with the assertion message that names the
    setting, [vertica.host]; the call ends by raising, its events contain
    no connection attempt and no query, and, once the parser has returned,
    that message is the one line the call prints. *)
Theorem missing_host_fails_before_connecting W cfg line cell ns local :
  environ W !! "VERTICA_HOST" = None ->
  let r := invoke W cfg line cell ns local in
  get_connection_dict (environ W) = Err (AssertionError no_host_message)
  /\ (exists e, outcome r = Err e)
  /\ existsb is_connect (events r) = false
  /\ existsb is_query (events r) = false
  /\ (forall p, parse W (line ++ newline ++ cell) cfg = Ok p ->
      printed (events r) = [no_host_message]).
Proof.
  intros Hh r. pose proof (get_connection_dict_no_host _ Hh) as Hd.
  split; [exact Hd|]. subst r.
  destruct (parse W (line ++ newline ++ cell) cfg) as [p|e] eqn:Hp.
  - rewrite (invoke_config_error W cfg line cell ns local p Hp _ Hd).
    simpl. repeat split; eauto.
  - rewrite (invoke_parse_error W cfg line cell ns local e Hp).
    simpl. repeat split; eauto. intros p [=].
Qed.

Lemma missing_host_fails_before_connecting_witness :
  let r := invoke Sample.no_host default_config "select 1" ""
             Sample.ns (LocalDict ∅) in
  get_connection_dict (environ Sample.no_host)
  = Err (AssertionError no_host_message)
  /\ (exists e, outcome r = Err e)
  /\ existsb is_connect (events r) = false
  /\ existsb is_query (events r) = false
  /\ printed (events r) = [no_host_message].
Proof.
  assert (environ Sample.no_host !! "VERTICA_HOST" = None) as Hh
    by (by vm_compute).
  destruct (missing_host_fails_before_connecting Sample.no_host
              default_config "select 1" "" Sample.ns (LocalDict ∅) Hh)
    as (H1 & H2 & H3 & H4 & H5).
  split; [exact H1|]. split; [exact H2|]. split; [exact H3|].
  split; [exact H4|].
  apply (H5 (Sample.plain ("select 1" ++ newline ++ ""))). reflexivity.
Defined.

(** ** The connection handle *)

(** C6: in every call that acquires a connection handle, the handle is
    closed after it was acquired and before the call ends, whatever the
    path: the events of the call have the close after the acquisition, no
    handle is left open at the end and none is closed twice. *)
Theorem handle_released_on_every_path W cfg line cell ns local c :
  EvAcquired c ∈ events (invoke W cfg line cell ns local) ->
  (exists pre post,
      events (invoke W cfg line cell ns local)
      = (pre ++ EvAcquired c :: post)%list
      /\ EvClose c ∈ post)
  /\ open_handles [] (events (invoke W cfg line cell ns local)) = Some [].
Proof.
  invoke_cases W cfg line cell ns local; unfold failure_events;
    try destruct (is_Exception _); simpl; intros Hin;
    repeat (apply elem_of_cons in Hin as [Hin|Hin]; [try discriminate|]);
    try (by apply elem_of_nil in Hin);
    injection Hin as ->.
  - split.
    + exists [EvConnect d], [EvQuery (p_sql p) c0; EvClose c0].
      split; [done|]. set_solver.
    + destruct c0 as [i]. simpl. by rewrite Nat.eqb_refl.
  - split.
    + exists [EvConnect d],
        [EvQuery (p_sql p) c0; EvClose c0; EvPrint (exn_str e)].
      split; [done|]. set_solver.
    + destruct c0 as [i]. simpl. by rewrite Nat.eqb_refl.
  - split.
    + exists [EvConnect d], [EvQuery (p_sql p) c0; EvClose c0].
      split; [done|]. set_solver.
    + destruct c0 as [i]. simpl. by rewrite Nat.eqb_refl.
Qed.

Lemma handle_released_on_every_path_witness :
  EvAcquired (Conn 7)
    ∈ events (invoke (Sample.failing_query (OperationalError "timeout"))
                default_config "select 1" "" Sample.ns (LocalDict ∅))
  /\ open_handles []
       (events (invoke (Sample.failing_query (OperationalError "timeout"))
                  default_config "select 1" "" Sample.ns (LocalDict ∅)))
     = Some [].
Proof.
  assert (EvAcquired (Conn 7)
            ∈ events (invoke (Sample.failing_query (OperationalError "timeout"))
                        default_config "select 1" "" Sample.ns (LocalDict ∅)))
    as Hin.
  { apply list_elem_of_lookup. exists 1. by vm_compute. }
  split; [exact Hin|].
  exact (proj2 (handle_released_on_every_path _ _ _ _ _ _ _ Hin)).
Defined.

(** The three exit paths of the scoped connection, on concrete calls:
    success, a database error, an error of another class. *)
Example handle_released_paths :
  let evs W := events (invoke W default_config "select 1" "" Sample.ns
                         (LocalDict ∅)) in
  open_handles [] (evs (Sample.good Sample.plain)) = Some []
  /\ open_handles [] (evs (Sample.failing_query (ProgrammingError "syntax")))
     = Some []
  /\ open_handles [] (evs (Sample.failing_query KeyboardInterrupt)) = Some []
  /\ forallb (fun W => existsb is_close (evs W))
       [Sample.good Sample.plain;
        Sample.failing_query (ProgrammingError "syntax");
        Sample.failing_query KeyboardInterrupt] = true.
Proof. by vm_compute. Qed.

(** ** The namespace of the notebook *)

(** The first [try] leaves every dict object as it was. *)
Lemma direct_path_heap W p σ :
  heap (direct_path W p σ).2 = heap σ.
Proof.
  destruct (get_connection_dict (environ W)) as [d|e] eqn:Hd.
  2: { pose proof (direct_body_config_error W p σ e Hd) as Hb.
       rewrite <- (after_nil σ) in Hb at 2.
       rewrite (direct_path_failure _ _ _ _ _ Hb). unfold failure.
       by destruct (is_Exception e). }
  destruct (connect W d) as [c|e] eqn:Hc.
  2: { rewrite (direct_path_failure _ _ _ _ _
                  (direct_body_connect_error W p σ d e Hd Hc)).
       unfold failure. by destruct (is_Exception e). }
  destruct (read_sql W (p_sql p) c) as [df|e] eqn:Hq.
  - unfold direct_path.
    by rewrite (try_except_return _ _ _ _ _ _
                  (direct_body_success W p σ d c df Hd Hc Hq)).
  - rewrite (direct_path_failure _ _ _ _ _
               (direct_body_query_error W p σ d c e Hd Hc Hq)).
    unfold failure. by destruct (is_Exception e).
Qed.

(** C10: no call changes the namespace of the notebook. The statements
    before the first [try] write into a copy, the first [try] never falls
    through to the statements after it, and so for every world, every
    configuration and every argument the namespace after the call is the
    namespace before it; more generally [execute] leaves every dict object
    that exists when it is called as it was. *)
Theorem namespace_never_mutated W cfg line cell ns local :
  user_ns_after (invoke W cfg line cell ns local) = ns
  /\ (forall p σ c σ', direct_path W p σ ≠ (Normal c, σ'))
  /\ (forall self local_ns σ l,
        l ∈ dom (heap σ) ->
        heap (execute W self line cell local_ns σ).2 !! l = heap σ !! l).
Proof.
  split; [|split].
  - by invoke_cases W cfg line cell ns local.
  - intros p σ c σ'. apply direct_path_exits.
  - intros self local_ns σ l Hl. rewrite execute_unfold.
    destruct (parse W _ _) as [p|e]; simpl.
    2: { by apply prelude_frame. }
    pose proof (direct_path_heap W p
                  (prelude_state (shell_user_ns self) local_ns σ)) as Hh.
    destruct (direct_path W p _) as [[k|v|e] σ'] eqn:Hdp; simpl in *.
    + exfalso. exact (direct_path_exits _ _ _ _ _ Hdp).
    + rewrite Hh. by apply prelude_frame.
    + rewrite Hh. by apply prelude_frame.
Qed.

Lemma namespace_never_mutated_witness :
  let σ := {| heap := {[ 0 := Sample.ns ]}; trace := [] |} in
  let self := {| config := Sample.switches true true true true;
                 shell_user_ns := 0 |} in
  0 ∈ dom (heap σ)
  /\ heap (execute (Sample.good (Sample.into "r")) self "select 1" "" 0 σ).2
       !! 0 = Some Sample.ns.
Proof.
  assert (0 ∈ dom ({[ 0 := Sample.ns ]} : gmap loc dict)) as Hin.
  { apply elem_of_dom. exists Sample.ns. apply lookup_singleton_eq. }
  split; [exact Hin|].
  destruct (namespace_never_mutated (Sample.good (Sample.into "r"))
              default_config "select 1" "" Sample.ns LocalIsUserNs)
    as (_ & _ & Hframe).
  simpl. rewrite (Hframe _ 0 {| heap := {[ 0 := Sample.ns ]}; trace := [] |}
                    0 Hin).
  apply lookup_singleton_eq.
Defined.

(** C7: with [column_local_vars] off and no [result_var] flag, a call
    whose query succeeds returns the dataframe that [read_sql] produced
    to its caller and leaves the namespace of the notebook as it was. *)
Theorem unbound_call_returns_result W cfg line cell ns local p d c df :
  column_local_vars cfg = false ->
  flags_get_truthy (p_flags p) "result_var" = None ->
  parse W (line ++ newline ++ cell) cfg = Ok p ->
  get_connection_dict (environ W) = Ok d ->
  connect W d = Ok c ->
  read_sql W (p_sql p) c = Ok df ->
  outcome (invoke W cfg line cell ns local) = Ok (PDataFrame df)
  /\ user_ns_after (invoke W cfg line cell ns local) = ns.
Proof.
  intros _ _ Hp Hd Hc Hq.
  by rewrite (invoke_success W cfg line cell ns local p Hp d c df Hd Hc Hq).
Qed.

Lemma unbound_call_returns_result_witness :
  outcome (invoke (Sample.good Sample.plain) default_config "select 1" ""
             Sample.ns (LocalDict ∅)) = Ok (PDataFrame Sample.table)
  /\ user_ns_after (invoke (Sample.good Sample.plain) default_config
                      "select 1" "" Sample.ns (LocalDict ∅)) = Sample.ns.
Proof.
  apply (unbound_call_returns_result (Sample.good Sample.plain)
           default_config "select 1" "" Sample.ns (LocalDict ∅)
           (Sample.plain ("select 1" ++ newline ++ ""))
           (default ∅ (match get_connection_dict Sample.env with
                       | Ok d => Some d
                       | Err _ => None
                       end))
           (Conn 7) Sample.table);
    by vm_compute.
Defined.

(** ** The three outcomes of a call *)

Lemma binds_names_same ns r : user_ns_after r = ns -> binds_names ns r = false.
Proof.
  intros H. unfold binds_names. apply bool_decide_eq_false_2.
  intros Hne. by apply Hne.
Qed.

(** C9: in every call at most one of the three outcomes occurs (a result
    value returned, names bound in the namespace, an error printed), and
    never a result together with a printed error. Exactly one occurs
    unless an exception escapes the call unhandled, which the exceptions
    of the parser and those outside [Exception] do; then none occurs. *)
Theorem at_most_one_outcome W cfg line cell ns local :
  let r := invoke W cfg line cell ns local in
  outcomes ns r <= 1
  /\ outcomes ns r
     = (if escapes W cfg (line ++ newline ++ cell) then 0 else 1)
  /\ returns_result r && prints_error r = false.
Proof.
  unfold escapes, outcomes.
  invoke_cases W cfg line cell ns local; simpl;
    rewrite ?binds_names_same by done;
    unfold failure_outcome, failure_events;
    try destruct (is_Exception e); simpl;
    repeat split; try done; lia.
Qed.

(** C9, the claim as stated fails: a query interrupted from the keyboard
    ends the call with none of the three outcomes. *)
Lemma interrupted_call_has_no_outcome :
  let r := invoke (Sample.failing_query KeyboardInterrupt) default_config
             "select 1" "" Sample.ns (LocalDict ∅) in
  outcome r = Err KeyboardInterrupt
  /\ returns_result r = false
  /\ binds_names Sample.ns r = false
  /\ prints_error r = false
  /\ outcomes Sample.ns r ≠ 1.
Proof. by vm_compute. Qed.

(** ** What the switches do not reach *)

(** C1, at a failing input: the query raises a [ProgrammingError]. With
    [short_errors] on, the message is printed once and the call does not
    return: it raises [NameError] for the name [sql]. With [short_errors]
    off the same happens: the database error is not raised again. *)
Theorem database_error_ends_in_name_error :
  let W := Sample.failing_query (ProgrammingError "syntax error") in
  let short := invoke W (Sample.switches true false false true)
                 "select 1" "" Sample.ns (LocalDict ∅) in
  let long := invoke W (Sample.switches false false false true)
                "select 1" "" Sample.ns (LocalDict ∅) in
  printed (events short) = ["syntax error"]
  /\ outcome short = Err (NameError "sql")
  /\ outcome short ≠ Ok PNone
  /\ printed (events long) = ["syntax error"]
  /\ outcome long = Err (NameError "sql")
  /\ outcome long ≠ Err (ProgrammingError "syntax error").
Proof. by vm_compute. Qed.

(** C2, at a failing input: with [autopandas] off a successful call
    returns a dataframe, the same value as with [autopandas] on, and not
    a generic row set. *)
Theorem autopandas_off_returns_dataframe :
  let off := invoke (Sample.good Sample.plain)
               (Sample.switches true false false true)
               "select 1" "" Sample.ns (LocalDict ∅) in
  let on := invoke (Sample.good Sample.plain)
              (Sample.switches true true false true)
              "select 1" "" Sample.ns (LocalDict ∅) in
  outcome off = Ok (PDataFrame Sample.table)
  /\ outcome on = outcome off
  /\ (forall rs, outcome off ≠ Ok (PResultSet rs)).
Proof. by vm_compute. Qed.

(** C3, at a failing input: with [column_local_vars] and [feedback] on
    and a result with the columns [a] and [b], the call returns the
    dataframe, prints nothing, and the namespace has neither [a] nor [b]
    afterwards. *)
Theorem column_local_vars_binds_nothing :
  let r := invoke (Sample.good Sample.plain)
             (Sample.switches true true true true)
             "select a, b from t" "" Sample.ns (LocalDict ∅) in
  Sample.table.*1 = ["a"; "b"]
  /\ outcome r = Ok (PDataFrame Sample.table)
  /\ outcome r ≠ Ok PNone
  /\ printed (events r) = []
  /\ user_ns_after r !! "a" = None
  /\ user_ns_after r !! "b" = None
  /\ user_ns_after r = Sample.ns.
Proof. by vm_compute. Qed.

(** C4, at a failing input: with the flag [result_var] naming [r] and
    [column_local_vars] off, the call returns the dataframe, prints
    nothing, and the namespace has no [r] afterwards. *)
Theorem result_var_binds_nothing :
  let r := invoke (Sample.good (Sample.into "r"))
             (Sample.switches true false false true)
             "r << select 1" "" Sample.ns (LocalDict ∅) in
  flags_get_truthy
    (p_flags (Sample.into "r" ("r << select 1" ++ newline ++ "")))
    "result_var" = Some "r"
  /\ outcome r = Ok (PDataFrame Sample.table)
  /\ outcome r ≠ Ok PNone
  /\ printed (events r) = []
  /\ user_ns_after r !! "r" = None
  /\ user_ns_after r = Sample.ns.
Proof. by vm_compute. Qed.

(** * Further properties of the code *)

(** ** [get_connection_dict], beyond its defaults *)

Lemma get_connection_dict_no_user (environ : environment) h :
  environ !! "VERTICA_HOST" = Some h ->
  environ !! "VERTICA_USER" = None ->
  get_connection_dict environ
  = Err (AssertionError
           "Ensure that `vertica.user` is set in your environment.").
Proof.
  intros Hh Hu. unfold get_connection_dict.
  by rewrite (assert_in_ok _ _ _ _ Hh), (assert_in_fails _ _ _ Hu).
Qed.

Lemma get_connection_dict_no_password (environ : environment) h u :
  environ !! "VERTICA_HOST" = Some h ->
  environ !! "VERTICA_USER" = Some u ->
  environ !! "VERTICA_PASSWORD" = None ->
  get_connection_dict environ
  = Err (AssertionError
           "Ensure that `vertica.password` is set in your environment.").
Proof.
  intros Hh Hu Hp. unfold get_connection_dict.
  by rewrite (assert_in_ok _ _ _ _ Hh), (assert_in_ok _ _ _ _ Hu),
    (assert_in_fails _ _ _ Hp).
Qed.

Lemma get_connection_dict_no_db (environ : environment) h u pw :
  environ !! "VERTICA_HOST" = Some h ->
  environ !! "VERTICA_USER" = Some u ->
  environ !! "VERTICA_PASSWORD" = Some pw ->
  environ !! "VERTICA_DB" = None ->
  get_connection_dict environ
  = Err (AssertionError
           "Ensure that `vertica.db` is set in your environment.").
Proof.
  intros Hh Hu Hp Hd. unfold get_connection_dict.
  by rewrite (assert_in_ok _ _ _ _ Hh), (assert_in_ok _ _ _ _ Hu),
    (assert_in_ok _ _ _ _ Hp), (assert_in_fails _ _ _ Hd).
Qed.

Lemma get_connection_dict_ok_inv (environ : environment) d :
  get_connection_dict environ = Ok d ->
  exists h u pw db,
    environ !! "VERTICA_HOST" = Some h
    /\ environ !! "VERTICA_USER" = Some u
    /\ environ !! "VERTICA_PASSWORD" = Some pw
    /\ environ !! "VERTICA_DB" = Some db.
Proof.
  intros Hd.
  destruct (environ !! "VERTICA_HOST") as [h|] eqn:Hh.
  2: { by rewrite (get_connection_dict_no_host _ Hh) in Hd. }
  destruct (environ !! "VERTICA_USER") as [u|] eqn:Hu.
  2: { by rewrite (get_connection_dict_no_user _ _ Hh Hu) in Hd. }
  destruct (environ !! "VERTICA_PASSWORD") as [pw|] eqn:Hpw.
  2: { by rewrite (get_connection_dict_no_password _ _ _ Hh Hu Hpw) in Hd. }
  destruct (environ !! "VERTICA_DB") as [db|] eqn:Hdb.
  2: { by rewrite (get_connection_dict_no_db _ _ _ _ Hh Hu Hpw Hdb) in Hd. }
  by exists h, u, pw, db.
Qed.

(** X1: [get_connection_dict] returns a dictionary exactly when the
    environment sets VERTICA_HOST, VERTICA_USER, VERTICA_PASSWORD and
    VERTICA_DB; in every other environment it raises an [AssertionError],
    never the [KeyError] of a subscript. *)
Theorem get_connection_dict_succeeds_iff (environ : environment) :
  ((exists d, get_connection_dict environ = Ok d)
   <-> (is_Some (environ !! "VERTICA_HOST")
        /\ is_Some (environ !! "VERTICA_USER")
        /\ is_Some (environ !! "VERTICA_PASSWORD")
        /\ is_Some (environ !! "VERTICA_DB")))
  /\ (forall e, get_connection_dict environ = Err e ->
                exists msg, e = AssertionError msg).
Proof.
  split; [|apply get_connection_dict_error].
  split.
  - intros [d Hd].
    destruct (get_connection_dict_ok_inv _ _ Hd)
      as (h & u & pw & db & -> & -> & -> & ->).
    eauto.
  - intros ([h Hh] & [u Hu] & [pw Hpw] & [db Hdb]).
    eexists. by apply (get_connection_dict_ok _ h u pw db).
Qed.

(** X2: the assertions run in the order host, user, password, database,
    and the first variable that is missing decides the message: a later
    variable is reported only when all the earlier ones are set. *)
Theorem first_missing_variable_is_reported (environ : environment) :
  (environ !! "VERTICA_HOST" = None ->
   get_connection_dict environ
   = Err (AssertionError
            "Ensure that `vertica.host` is set in your environment."))
  /\ (is_Some (environ !! "VERTICA_HOST") ->
      environ !! "VERTICA_USER" = None ->
      get_connection_dict environ
      = Err (AssertionError
               "Ensure that `vertica.user` is set in your environment."))
  /\ (is_Some (environ !! "VERTICA_HOST") ->
      is_Some (environ !! "VERTICA_USER") ->
      environ !! "VERTICA_PASSWORD" = None ->
      get_connection_dict environ
      = Err (AssertionError
               "Ensure that `vertica.password` is set in your environment."))
  /\ (is_Some (environ !! "VERTICA_HOST") ->
      is_Some (environ !! "VERTICA_USER") ->
      is_Some (environ !! "VERTICA_PASSWORD") ->
      environ !! "VERTICA_DB" = None ->
      get_connection_dict environ
      = Err (AssertionError
               "Ensure that `vertica.db` is set in your environment.")).
Proof.
  split; [apply get_connection_dict_no_host|].
  split; [intros [h Hh]; by apply (get_connection_dict_no_user _ h)|].
  split.
  - intros [h Hh] [u Hu]. by apply (get_connection_dict_no_password _ h u).
  - intros [h Hh] [u Hu] [pw Hpw].
    by apply (get_connection_dict_no_db _ h u pw).
Qed.

(** Only the host is set: the user is what is reported, although the
    password and the database are missing too. *)
Lemma first_missing_variable_is_reported_witness :
  get_connection_dict ({[ "VERTICA_HOST" := "db.example.org" ]} : environment)
  = Err (AssertionError
           "Ensure that `vertica.user` is set in your environment.").
Proof.
  apply (proj1 (proj2 (first_missing_variable_is_reported
                         {[ "VERTICA_HOST" := "db.example.org" ]}))).
  - exists "db.example.org". by vm_compute.
  - by vm_compute.
Defined.

(** X3: an optional variable that is set is passed on as the string the
    environment holds: with VERTICA_PORT or VERTICA_TIMEOUT set, [port] and
    [connection_timeout] are strings, while their defaults 5433 and 5 are
    integers. *)
Theorem optional_variables_stay_strings (environ : environment) h u pw db :
  environ !! "VERTICA_HOST" = Some h ->
  environ !! "VERTICA_USER" = Some u ->
  environ !! "VERTICA_PASSWORD" = Some pw ->
  environ !! "VERTICA_DB" = Some db ->
  exists d : gmap string scalar,
    get_connection_dict environ = Ok d
    /\ (forall v, environ !! "VERTICA_PORT" = Some v ->
                  d !! "port" = Some (SStr v))
    /\ (forall v, environ !! "VERTICA_LABEL" = Some v ->
                  d !! "session_label" = Some (SStr v))
    /\ (forall v, environ !! "VERTICA_TIMEOUT" = Some v ->
                  d !! "connection_timeout" = Some (SStr v)).
Proof.
  intros Hh Hu Hpw Hdb. eexists. split.
  { by apply get_connection_dict_ok. }
  unfold environ_get.
  repeat split; intros v ->; by vm_compute.
Qed.

Lemma optional_variables_stay_strings_witness :
  let environ : environment :=
    <[ "VERTICA_TIMEOUT" := "30" ]> (<[ "VERTICA_PORT" := "5434" ]> Sample.env)
  in
  exists d : gmap string scalar,
    get_connection_dict environ = Ok d
    /\ d !! "port" = Some (SStr "5434")
    /\ d !! "connection_timeout" = Some (SStr "30").
Proof.
  intros environ.
  destruct (optional_variables_stay_strings environ
              "db.example.org" "dbadmin" "secret" "sales")
    as (d & Hd & Hport & _ & Htimeout); try by vm_compute.
  exists d. split; [exact Hd|]. split.
  - apply Hport. by vm_compute.
  - apply Htimeout. by vm_compute.
Defined.

(** X4: whatever the environment holds, a returned dictionary has the
    same ten keys, and [unicode_error], [ssl] and
    [use_prepared_statements] are fixed to ['strict'], [False], [False]. *)
Theorem connection_dict_keys (environ : environment) d :
  get_connection_dict environ = Ok d ->
  dom d = list_to_set
            ["host"; "port"; "user"; "password"; "database";
             "session_label"; "unicode_error"; "ssl";
             "use_prepared_statements"; "connection_timeout"]
  /\ d !! "unicode_error" = Some (SStr "strict")
  /\ d !! "ssl" = Some (SBool false)
  /\ d !! "use_prepared_statements" = Some (SBool false).
Proof.
  intros Hd.
  destruct (get_connection_dict_ok_inv _ _ Hd)
    as (h & u & pw & db & Hh & Hu & Hpw & Hdb).
  rewrite (get_connection_dict_ok _ h u pw db Hh Hu Hpw Hdb) in Hd.
  injection Hd as <-.
  split; [|by vm_compute].
  unfold py_dict; simpl. rewrite !dom_insert_L, dom_empty_L. set_solver.
Qed.

Lemma connection_dict_keys_witness :
  exists d,
    get_connection_dict Sample.env = Ok d
    /\ size (dom d) = 10
    /\ d !! "ssl" = Some (SBool false).
Proof.
  destruct (get_connection_dict Sample.env) as [d|e] eqn:Hd;
    [|by vm_compute in Hd].
  exists d. split; [done|].
  destruct (connection_dict_keys Sample.env d Hd) as (Hdom & _ & Hssl & _).
  split; [|exact Hssl]. rewrite Hdom. by vm_compute.
Defined.

(** X5: only the seven VERTICA variables are read: two environments that
    agree on them give the same result, dictionary or error. *)
Theorem other_variables_are_ignored (environ environ' : environment) :
  (forall k, k ∈ ["VERTICA_HOST"; "VERTICA_USER"; "VERTICA_PASSWORD";
                  "VERTICA_DB"; "VERTICA_PORT"; "VERTICA_LABEL";
                  "VERTICA_TIMEOUT"] ->
             environ !! k = environ' !! k) ->
  get_connection_dict environ = get_connection_dict environ'.
Proof.
  intros Hagree.
  unfold get_connection_dict, assert_in, environ_getitem, environ_get.
  rewrite !(Hagree "VERTICA_HOST"), !(Hagree "VERTICA_USER"),
    !(Hagree "VERTICA_PASSWORD"), !(Hagree "VERTICA_DB"),
    !(Hagree "VERTICA_PORT"), !(Hagree "VERTICA_LABEL"),
    !(Hagree "VERTICA_TIMEOUT") by set_solver.
  done.
Qed.

Lemma other_variables_are_ignored_witness :
  get_connection_dict (<[ "HOME" := "/root" ]> Sample.env)
  = get_connection_dict Sample.env.
Proof.
  apply other_variables_are_ignored.
  intros k Hk. apply lookup_insert_ne. intros <-.
  repeat (apply elem_of_cons in Hk as [Hk|Hk]; [discriminate Hk|]).
  by apply elem_of_nil in Hk.
Defined.

(** ** [execute], beyond the claims *)

(** X6: the traits of the magic reach a call through the parser only:
    two configurations for which the parser answers alike give the same
    outcome, the same events and the same namespace. *)
Theorem traits_only_reach_the_parser W cfg cfg' line cell ns local :
  parse W (line ++ newline ++ cell) cfg
  = parse W (line ++ newline ++ cell) cfg' ->
  invoke W cfg line cell ns local = invoke W cfg' line cell ns local.
Proof.
  intros Hsame.
  destruct (parse W (line ++ newline ++ cell) cfg) as [p|e] eqn:Hp;
    symmetry in Hsame.
  2: { by rewrite (invoke_parse_error W cfg line cell ns local e Hp),
         (invoke_parse_error W cfg' line cell ns local e Hsame). }
  destruct (get_connection_dict (environ W)) as [d|e] eqn:Hd.
  2: { by rewrite (invoke_config_error W cfg line cell ns local p Hp e Hd),
         (invoke_config_error W cfg' line cell ns local p Hsame e Hd). }
  destruct (connect W d) as [c|e] eqn:Hc.
  2: { by rewrite (invoke_connect_error W cfg line cell ns local p Hp d e
                     Hd Hc),
         (invoke_connect_error W cfg' line cell ns local p Hsame d e Hd Hc). }
  destruct (read_sql W (p_sql p) c) as [df|e] eqn:Hq.
  - by rewrite (invoke_success W cfg line cell ns local p Hp d c df Hd Hc Hq),
      (invoke_success W cfg' line cell ns local p Hsame d c df Hd Hc Hq).
  - by rewrite (invoke_query_error W cfg line cell ns local p Hp d c e
                  Hd Hc Hq),
      (invoke_query_error W cfg' line cell ns local p Hsame d c e Hd Hc Hq).
Qed.

(** All four switches turned the other way, same call. *)
Lemma traits_only_reach_the_parser_witness :
  invoke (Sample.good Sample.plain) (Sample.switches true false false true)
    "select 1" "" Sample.ns (LocalDict ∅)
  = invoke (Sample.good Sample.plain) (Sample.switches false true true false)
      "select 1" "" Sample.ns (LocalDict ∅).
Proof. by apply traits_only_reach_the_parser. Defined.

(** X7: the namespaces are copied and merged but never consulted: the
    outcome and the events of a call are the same for every content of
    the notebook namespace and every [local_ns]. *)
Theorem namespaces_are_never_consulted W cfg line cell ns local ns' local' :
  outcome (invoke W cfg line cell ns local)
  = outcome (invoke W cfg line cell ns' local')
  /\ events (invoke W cfg line cell ns local)
     = events (invoke W cfg line cell ns' local').
Proof.
  destruct (parse W (line ++ newline ++ cell) cfg) as [p|e] eqn:Hp.
  2: { by rewrite (invoke_parse_error W cfg line cell ns local e Hp),
         (invoke_parse_error W cfg line cell ns' local' e Hp). }
  destruct (get_connection_dict (environ W)) as [d|e] eqn:Hd.
  2: { by rewrite (invoke_config_error W cfg line cell ns local p Hp e Hd),
         (invoke_config_error W cfg line cell ns' local' p Hp e Hd). }
  destruct (connect W d) as [c|e] eqn:Hc.
  2: { by rewrite (invoke_connect_error W cfg line cell ns local p Hp d e
                     Hd Hc),
         (invoke_connect_error W cfg line cell ns' local' p Hp d e Hd Hc). }
  destruct (read_sql W (p_sql p) c) as [df|e] eqn:Hq.
  - by rewrite (invoke_success W cfg line cell ns local p Hp d c df Hd Hc Hq),
      (invoke_success W cfg line cell ns' local' p Hp d c df Hd Hc Hq).
  - by rewrite (invoke_query_error W cfg line cell ns local p Hp d c e
                  Hd Hc Hq),
      (invoke_query_error W cfg line cell ns' local' p Hp d c e Hd Hc Hq).
Qed.

(** X8: when the driver cannot connect and raises an [Exception], the
    error is not passed on: its message is printed, no handle is acquired,
    no query is sent, and the caller receives the [NameError] of [sql]. *)
Theorem connection_error_is_printed W cfg line cell ns local p d e :
  parse W (line ++ newline ++ cell) cfg = Ok p ->
  get_connection_dict (environ W) = Ok d ->
  connect W d = Err e ->
  is_Exception e = true ->
  events (invoke W cfg line cell ns local)
  = [EvConnect d; EvPrint (exn_str e)]
  /\ outcome (invoke W cfg line cell ns local) = Err (NameError "sql").
Proof.
  intros Hp Hd Hc He.
  rewrite (invoke_connect_error W cfg line cell ns local p Hp d e Hd Hc).
  unfold failure_events, failure_outcome. by rewrite He.
Qed.

Lemma connection_error_is_printed_witness :
  printed (events (invoke (Sample.no_server (OperationalError "refused"))
                     default_config "select 1" "" Sample.ns (LocalDict ∅)))
  = ["refused"]
  /\ outcome (invoke (Sample.no_server (OperationalError "refused"))
                default_config "select 1" "" Sample.ns (LocalDict ∅))
     = Err (NameError "sql").
Proof.
  destruct (get_connection_dict Sample.env) as [d|e0] eqn:Hd;
    [|by vm_compute in Hd].
  destruct (connection_error_is_printed
              (Sample.no_server (OperationalError "refused"))
              default_config "select 1" "" Sample.ns (LocalDict ∅)
              (Sample.plain ("select 1" ++ newline ++ "")) d
              (OperationalError "refused") eq_refl Hd eq_refl eq_refl)
    as [Hev Hout].
  split; [|exact Hout]. by rewrite Hev.
Defined.

(** X9: when the query raises an [Exception], the handle is closed
    before the message is printed: the events are the connection, the
    acquisition, the query, the close and then the one printed line; the
    caller receives the [NameError] of [sql]. *)
Theorem query_error_closes_then_prints W cfg line cell ns local p d c e :
  parse W (line ++ newline ++ cell) cfg = Ok p ->
  get_connection_dict (environ W) = Ok d ->
  connect W d = Ok c ->
  read_sql W (p_sql p) c = Err e ->
  is_Exception e = true ->
  events (invoke W cfg line cell ns local)
  = [EvConnect d; EvAcquired c; EvQuery (p_sql p) c; EvClose c;
     EvPrint (exn_str e)]
  /\ outcome (invoke W cfg line cell ns local) = Err (NameError "sql").
Proof.
  intros Hp Hd Hc Hq He.
  rewrite (invoke_query_error W cfg line cell ns local p Hp d c e Hd Hc Hq).
  unfold failure_events, failure_outcome. by rewrite He.
Qed.

Lemma query_error_closes_then_prints_witness :
  printed (events (invoke (Sample.failing_query (OtherException "ValueError"
                                                   "bad value"))
                     default_config "select 1" "" Sample.ns (LocalDict ∅)))
  = ["bad value"].
Proof.
  destruct (get_connection_dict Sample.env) as [d|e0] eqn:Hd;
    [|by vm_compute in Hd].
  destruct (query_error_closes_then_prints
              (Sample.failing_query (OtherException "ValueError" "bad value"))
              default_config "select 1" "" Sample.ns (LocalDict ∅)
              (Sample.plain ("select 1" ++ newline ++ "")) d (Conn 7)
              (OtherException "ValueError" "bad value")
              eq_refl Hd eq_refl eq_refl eq_refl) as [Hev _].
  by rewrite Hev.
Defined.

(** X10: an exception that is no [Exception] (a keyboard interrupt),
    raised while connecting or while querying, reaches the caller as it
    is: nothing is printed, and a handle that was acquired is closed. *)
Theorem base_exception_propagates W cfg line cell ns local p d e :
  parse W (line ++ newline ++ cell) cfg = Ok p ->
  get_connection_dict (environ W) = Ok d ->
  is_Exception e = false ->
  (connect W d = Err e
   \/ exists c, connect W d = Ok c /\ read_sql W (p_sql p) c = Err e) ->
  outcome (invoke W cfg line cell ns local) = Err e
  /\ printed (events (invoke W cfg line cell ns local)) = []
  /\ open_handles [] (events (invoke W cfg line cell ns local)) = Some [].
Proof.
  intros Hp Hd He [Hc|(c & Hc & Hq)].
  - rewrite (invoke_connect_error W cfg line cell ns local p Hp d e Hd Hc).
    unfold failure_events, failure_outcome. by rewrite He.
  - rewrite (invoke_query_error W cfg line cell ns local p Hp d c e Hd Hc Hq).
    unfold failure_events, failure_outcome. rewrite He. simpl.
    destruct c as [i]. by rewrite Nat.eqb_refl.
Qed.

Lemma base_exception_propagates_witness :
  outcome (invoke (Sample.failing_query KeyboardInterrupt) default_config
             "select 1" "" Sample.ns (LocalDict ∅)) = Err KeyboardInterrupt.
Proof.
  destruct (get_connection_dict Sample.env) as [d|e0] eqn:Hd;
    [|by vm_compute in Hd].
  refine (proj1 (base_exception_propagates
                   (Sample.failing_query KeyboardInterrupt)
                   default_config "select 1" "" Sample.ns (LocalDict ∅)
                   (Sample.plain ("select 1" ++ newline ++ "")) d
                   KeyboardInterrupt eq_refl Hd eq_refl _)).
  right. by exists (Conn 7).
Defined.

(** X11: an exception of the parser ends the call before anything else
    happens: it reaches the caller as it is, whatever its class, and the
    call has no event, so no connection attempt and no printed line. *)
Theorem parser_error_propagates W cfg line cell ns local e :
  parse W (line ++ newline ++ cell) cfg = Err e ->
  outcome (invoke W cfg line cell ns local) = Err e
  /\ events (invoke W cfg line cell ns local) = [].
Proof.
  intros Hp. by rewrite (invoke_parse_error W cfg line cell ns local e Hp).
Qed.

Lemma parser_error_propagates_witness :
  let W := {| environ := Sample.env;
              parse := fun _ _ => Err (OtherException "ValueError" "flag");
              connect := fun _ => Ok (Conn 7);
              read_sql := fun _ _ => Ok Sample.table;
              tell_format := Ok "";
              run := fun _ _ _ _ => Ok PNone |} in
  outcome (invoke W default_config "select 1" "" Sample.ns (LocalDict ∅))
  = Err (OtherException "ValueError" "flag")
  /\ events (invoke W default_config "select 1" "" Sample.ns (LocalDict ∅))
     = [].
Proof. intros W. by apply parser_error_propagates. Defined.

(** X12: a call that returns has run its query with success and hands
    over the dataframe: [execute] never returns [None], nor any value that
    is no dataframe, and a call that returns has printed nothing. *)
Theorem returns_only_dataframes W cfg line cell ns local v :
  outcome (invoke W cfg line cell ns local) = Ok v ->
  exists p d c df,
    parse W (line ++ newline ++ cell) cfg = Ok p
    /\ get_connection_dict (environ W) = Ok d
    /\ connect W d = Ok c
    /\ read_sql W (p_sql p) c = Ok df
    /\ v = PDataFrame df
    /\ printed (events (invoke W cfg line cell ns local)) = [].
Proof.
  invoke_cases W cfg line cell ns local; simpl;
    unfold failure_outcome; try destruct (is_Exception _); try done.
  intros [= <-]. by exists p, d, c, df.
Qed.

Lemma returns_only_dataframes_witness :
  exists df,
    PDataFrame Sample.table = PDataFrame df
    /\ read_sql (Sample.good Sample.plain)
         ("select 1" ++ newline ++ "") (Conn 7) = Ok df.
Proof.
  destruct (returns_only_dataframes (Sample.good Sample.plain)
              default_config "select 1" "" Sample.ns (LocalDict ∅)
              (PDataFrame Sample.table) eq_refl)
    as (p & d & c & df & Hp & _ & Hc & Hq & Hv & _).
  injection Hp as <-. injection Hc as <-.
  exists df. by split.
Defined.

(** X13: one call makes at most one connection attempt, sends at most
    one query, closes at most one handle and prints at most one line; a
    query is sent only on an acquired handle. *)
Theorem at_most_one_of_each_event W cfg line cell ns local :
  let evs := events (invoke W cfg line cell ns local) in
  length (List.filter is_connect evs) <= 1
  /\ length (List.filter is_query evs) <= 1
  /\ length (List.filter is_close evs) <= 1
  /\ length (printed evs) <= 1
  /\ (forall q c, EvQuery q c ∈ evs -> EvAcquired c ∈ evs).
Proof.
  invoke_cases W cfg line cell ns local; simpl;
    unfold failure_events; try destruct (is_Exception _); simpl;
    repeat split; try lia; intros q k Hin;
    repeat (apply elem_of_cons in Hin as [Hin|Hin]; [try discriminate|]);
    try (by apply elem_of_nil in Hin);
    injection Hin as -> ->; set_solver.
Qed.

(** X14: a call in which everything succeeds consists of exactly four
    events: the connection with the parameters of [get_connection_dict],
    the acquisition of the handle, one query with the SQL text of the
    parser on that handle, and the close; nothing is printed. *)
Theorem successful_call_events W cfg line cell ns local p d c df :
  parse W (line ++ newline ++ cell) cfg = Ok p ->
  get_connection_dict (environ W) = Ok d ->
  connect W d = Ok c ->
  read_sql W (p_sql p) c = Ok df ->
  events (invoke W cfg line cell ns local)
  = [EvConnect d; EvAcquired c; EvQuery (p_sql p) c; EvClose c].
Proof.
  intros Hp Hd Hc Hq.
  by rewrite (invoke_success W cfg line cell ns local p Hp d c df Hd Hc Hq).
Qed.

Lemma successful_call_events_witness :
  List.filter is_query
    (events (invoke (Sample.good (Sample.into "r")) default_config
               "r << select 1" "" Sample.ns LocalIsUserNs))
  = [EvQuery ("r << select 1" ++ newline ++ "") (Conn 7)].
Proof.
  destruct (get_connection_dict Sample.env) as [d|e0] eqn:Hd;
    [|by vm_compute in Hd].
  by rewrite (successful_call_events (Sample.good (Sample.into "r"))
                default_config "r << select 1" "" Sample.ns LocalIsUserNs
                (Sample.into "r" ("r << select 1" ++ newline ++ "")) d
                (Conn 7) Sample.table eq_refl Hd eq_refl eq_refl).
Defined.

(** ** The statements after the first [try], on their own *)

(** X15: were the statements of lines 128-164 reached, they would stop
    at their first expression: the module binds no name [sql], the
    [NameError] is none of the two classes their handler takes, and so
    they raise it without running [run], printing or touching a dict,
    whatever the traits and the flags are. *)
Theorem legacy_path_stops_at_sql W self p flags c user_ns σ :
  legacy_path W self p flags c user_ns σ = (Raise (NameError "sql"), σ).
Proof.
  unfold legacy_path, try_except. step_globals. by run_monad.
Qed.

(** ** The merged namespace of lines 111-112 *)

(** X16: the dict that [execute] builds for bind variables is a new
    object: it holds every entry of [local_ns], and the entries of the
    notebook namespace whose names [local_ns] does not have; a name in
    both takes the value of [local_ns]. *)
Theorem merged_namespace_prefers_locals W self line cell local_ns σ k :
  let merged :=
    default ∅ (heap (execute W self line cell local_ns σ).2
                 !! fresh (dom (heap σ))) in
  (fresh (dom (heap σ)) ∉ dom (heap σ))
  /\ merged !! k
     = match (default ∅ (heap σ !! local_ns)) !! k with
       | Some v => Some v
       | None => (default ∅ (heap σ !! shell_user_ns self)) !! k
       end.
Proof.
  split; [apply is_fresh|].
  assert (heap (execute W self line cell local_ns σ).2
          = heap (prelude_state (shell_user_ns self) local_ns σ)) as ->.
  { rewrite execute_unfold. destruct (parse W _ _) as [p|e]; [|done].
    pose proof (direct_path_heap W p
                  (prelude_state (shell_user_ns self) local_ns σ)) as Hh.
    destruct (direct_path W p _) as [[c|v|e] σ'] eqn:Hdp; simpl in *;
      [|done|done].
    exfalso. exact (direct_path_exits _ _ _ _ _ Hdp). }
  unfold prelude_state; simpl.
  rewrite !lookup_insert_eq; simpl.
  assert (fresh (dom (heap σ)) ≠ local_ns
          \/ fresh (dom (heap σ)) = local_ns) as [Hne| <-]
    by (destruct (decide (fresh (dom (heap σ)) = local_ns)); auto).
  - rewrite lookup_insert_ne by done.
    rewrite lookup_union.
    destruct ((default ∅ (heap σ !! local_ns)) !! k) as [v|];
      destruct ((default ∅ (heap σ !! shell_user_ns self)) !! k); done.
  - rewrite lookup_insert_eq; simpl.
    assert (heap σ !! fresh (dom (heap σ)) = None) as ->.
    { apply not_elem_of_dom. apply is_fresh. }
    simpl. rewrite lookup_empty, lookup_union.
    by destruct ((default ∅ (heap σ !! shell_user_ns self)) !! k).
Qed.

Lemma merged_namespace_prefers_locals_witness :
  let σ := {| heap := <[ 1 := {[ "x" := PScalar (SInt 2);
                                 "y" := PScalar (SInt 3) ]} ]>
                        {[ 0 := Sample.ns ]};
              trace := [] |} in
  let self := {| config := default_config; shell_user_ns := 0 |} in
  let merged :=
    default ∅ (heap (execute (Sample.good Sample.plain) self "select 1" ""
                       1 σ).2 !! fresh (dom (heap σ))) in
  merged !! "x" = Some (PScalar (SInt 2)).
Proof.
  intros σ self merged.
  destruct (merged_namespace_prefers_locals (Sample.good Sample.plain) self
              "select 1" "" 1 σ "x") as [_ Hm].
  subst merged. rewrite Hm. by vm_compute.
Defined.

(** ** [legal_sql_identifier] *)

Lemma legal_prefix_app (m rest : string) :
  legal_prefix m = m ->
  legal_prefix (m ++ rest) = m ++ legal_prefix rest.
Proof.
  induction m as [|a m IH]; simpl; [done|].
  destruct (legal_char a); [|done].
  intros [= Hm]. by rewrite (IH Hm).
Qed.

Lemma legal_prefix_idem (s : string) :
  legal_prefix (legal_prefix s) = legal_prefix s.
Proof.
  induction s as [|a s IH]; simpl; [done|].
  destruct (legal_char a) eqn:Ha; simpl; [|done].
  by rewrite Ha, IH.
Qed.

Lemma legal_prefix_split (s : string) :
  exists rest,
    s = legal_prefix s ++ rest
    /\ match rest with
       | String a _ => legal_char a = false
       | EmptyString => True
       end.
Proof.
  induction s as [|a s (rest & Hs & Hrest)]; simpl.
  - by exists "".
  - destruct (legal_char a) eqn:Ha.
    + exists rest. split; [|done].
      change (String a s = String a (legal_prefix s ++ rest)).
      f_equal. exact Hs.
    + exists (String a s). by split.
Qed.

(** X17: the pattern matches exactly the strings that start with a
    character of its class: the empty string and a string whose first
    character is outside the class have no match, and what follows the
    first character never prevents a match. *)
Theorem legal_sql_identifier_matches_iff (s : string) :
  is_Some (legal_sql_identifier_match s)
  <-> exists a rest, s = String a rest /\ legal_char a = true.
Proof.
  unfold legal_sql_identifier_match. destruct s as [|a rest]; simpl.
  - split; [by intros [? ?]|by intros (? & ? & ? & ?)].
  - destruct (legal_char a) eqn:Ha.
    + split; [eauto|]. intros _. eauto.
    + split; [by intros [? ?]|]. intros (? & ? & [= <- <-] & ?). congruence.
Qed.

(** X18: a match is the longest prefix in the class: the string is the
    match followed by a rest, the match is not empty, and the rest is
    empty or starts with a character outside the class, so the pattern
    does not check that the whole string is an identifier. *)
Theorem legal_sql_identifier_match_is_longest_prefix (s m : string) :
  legal_sql_identifier_match s = Some m ->
  m ≠ ""
  /\ legal_prefix m = m
  /\ exists rest,
       s = m ++ rest
       /\ match rest with
          | String a _ => legal_char a = false
          | EmptyString => True
          end.
Proof.
  unfold legal_sql_identifier_match. intros Hm.
  assert (legal_prefix s = m /\ m ≠ "") as [<- Hne].
  { destruct (legal_prefix s); [done|]. by injection Hm as <-. }
  split; [done|]. split; [apply legal_prefix_idem|].
  apply legal_prefix_split.
Qed.

Lemma legal_sql_identifier_match_is_longest_prefix_witness :
  legal_sql_identifier_match "t_1$x; drop table t" = Some "t_1$x"
  /\ exists rest, "t_1$x; drop table t" = "t_1$x" ++ rest.
Proof.
  assert (legal_sql_identifier_match "t_1$x; drop table t" = Some "t_1$x")
    as Hm by reflexivity.
  split; [exact Hm|].
  destruct (legal_sql_identifier_match_is_longest_prefix _ _ Hm)
    as (_ & _ & rest & Hs & _).
  by exists rest.
Defined.

(** X19: matching is idempotent: the text of a match matches again, as
    a whole, with itself as the result. *)
Theorem legal_sql_identifier_match_idempotent (s m : string) :
  legal_sql_identifier_match s = Some m ->
  legal_sql_identifier_match m = Some m.
Proof.
  unfold legal_sql_identifier_match. intros Hm.
  assert (legal_prefix s = m /\ m ≠ "") as [<- Hne].
  { destruct (legal_prefix s); [done|]. by injection Hm as <-. }
  rewrite legal_prefix_idem. by destruct (legal_prefix s).
Qed.

Lemma legal_sql_identifier_match_idempotent_witness :
  legal_sql_identifier_match "col#1" = Some "col#1".
Proof.
  apply (legal_sql_identifier_match_idempotent "col#1 from t").
  reflexivity.
Defined.

Lemma string_app_empty (m : string) : m ++ "" = m.
Proof.
  induction m as [|a m IH]; [done|].
  change (String a (m ++ "") = String a m). by rewrite IH.
Qed.

(** X20: conversely, a non-empty run of characters of the class followed
    by nothing, or by a rest that starts outside the class, is matched
    with exactly that run as the result. *)
Theorem legal_sql_identifier_match_complete (m rest : string) :
  m ≠ "" ->
  legal_prefix m = m ->
  match rest with
  | String a _ => legal_char a = false
  | EmptyString => True
  end ->
  legal_sql_identifier_match (m ++ rest) = Some m.
Proof.
  intros Hne Hm Hrest. unfold legal_sql_identifier_match.
  rewrite (legal_prefix_app _ _ Hm).
  assert (legal_prefix rest = "") as ->.
  { destruct rest as [|a rest]; simpl; [done|]. by rewrite Hrest. }
  rewrite string_app_empty. by destruct m.
Qed.

Lemma legal_sql_identifier_match_complete_witness :
  legal_sql_identifier_match ("Sales_2020" ++ ".orders") = Some "Sales_2020".
Proof.
  apply legal_sql_identifier_match_complete; [done|reflexivity|reflexivity].
Defined.

(** ** A missing variable, whichever it is *)

(** X21: whenever [get_connection_dict] fails, for any of the four
    variables, the call makes no connection attempt: its only event is
    the printed message of the failed assertion, and the caller receives
    the [NameError] of [sql], not the [AssertionError]. *)
Theorem configuration_error_is_printed W cfg line cell ns local p e :
  parse W (line ++ newline ++ cell) cfg = Ok p ->
  get_connection_dict (environ W) = Err e ->
  events (invoke W cfg line cell ns local) = [EvPrint (exn_str e)]
  /\ outcome (invoke W cfg line cell ns local) = Err (NameError "sql")
  /\ exists msg, e = AssertionError msg.
Proof.
  intros Hp Hd.
  destruct (get_connection_dict_error _ _ Hd) as [msg ->].
  rewrite (invoke_config_error W cfg line cell ns local p Hp _ Hd).
  simpl. eauto.
Qed.

Lemma configuration_error_is_printed_witness :
  let W := {| environ := delete "VERTICA_DB" Sample.env;
              parse := fun text _ => Ok (Sample.plain text);
              connect := fun _ => Ok (Conn 7);
              read_sql := fun _ _ => Ok Sample.table;
              tell_format := Ok "";
              run := fun _ _ _ _ => Ok PNone |} in
  events (invoke W default_config "select 1" "" Sample.ns (LocalDict ∅))
  = [EvPrint "Ensure that `vertica.db` is set in your environment."].
Proof.
  intros W.
  assert (get_connection_dict (environ W)
          = Err (AssertionError
                   "Ensure that `vertica.db` is set in your environment."))
    as Hd by (by vm_compute).
  exact (proj1 (configuration_error_is_printed W default_config "select 1" ""
                  Sample.ns (LocalDict ∅)
                  (Sample.plain ("select 1" ++ newline ++ "")) _
                  eq_refl Hd)).
Defined.
